(** * Diagnostic actions over the CAN bus: the [Action] base class

    A shallow embedding of [src/rest_api/actions/base_actions.py]: the
    response collector, the frame verifier, the per-service data
    extractors, the seed/key transform, the authentication sequence and the
    hexadecimal formatter, followed by the properties proved about them.

    Conventions.  Python integers are [Z].  A payload ([msg.data], a
    [bytearray]) is a [list Z] whose elements are bytes, [0 <= b < 256].
    An indexing [l[i]] that leaves the list raises [IndexError]; a slice
    [l[i:]] never raises.  Code that talks to the bus, the logger, the clock
    or the frame generator is written in the monad [M] over a [World]. *)

From Stdlib Require Import ZArith String Ascii List Lia.
From Stdlib Require Import HexadecimalString DecimalString.
From stdpp Require Import base option list strings gmap.

Open Scope Z_scope.

(** ** Exceptions and results *)

(** The dictionary built by [_to_json_error], before [json.dumps]. *)
Record Envelope := mkEnvelope {
  ERROR : string;
  No_of_errors : Z;
  time_stamp : string
}.

Inductive exn :=
| IndexError
| TypeError
| AttributeError
| CustomError (message : Envelope).

Inductive result (A : Type) :=
| Ok (a : A)
| Raise (e : exn).
Arguments Ok {A} a.
Arguments Raise {A} e.

#[export] Instance result_ret : MRet result := fun _ a => Ok a.
#[export] Instance result_bind : MBind result := fun _ _ f r =>
  match r with
  | Ok a => f a
  | Raise e => Raise e
  end.

(** [l[i]] for a non-negative literal index [i]. *)
Definition index {A} (l : list A) (i : nat) : result A :=
  match l !! i with
  | Some x => Ok x
  | None => Raise IndexError
  end.

(** [l[i:]] for an integer [i]: a negative start counts from the end, and a
    start outside the list is clamped. *)
Definition slice_from {A} (l : list A) (i : Z) : list A :=
  if i <? 0 then drop (Z.to_nat (Z.of_nat (length l) + i)) l
  else drop (Z.to_nat i) l.

(** ** Frame model *)

Record Message := mkMessage {
  arbitration_id : Z;
  data : list Z
}.

Definition is_byte (b : Z) : Prop := 0 <= b < 256.

Definition SESSION_CONTROL : Z := 0x10.
Definition RESET_ECU : Z := 0x11.
Definition READ_BY_ADDRESS : Z := 0x23.
Definition READ_BY_IDENTIFIER : Z := 0x022.
Definition AUTHENTICATION : Z := 0x29.
Definition ROUTINE_CONTROL : Z := 0x31.
Definition WRITE_BY_IDENTIFIER : Z := 0x2E.
Definition READ_DTC : Z := 0x19.
Definition CLEAR_DTC : Z := 0x14.
Definition REQUEST_DOWNLOAD : Z := 0x83.
Definition TRANSFER_DATA : Z := 0x36.
Definition REQUEST_TRANSFER_EXIT : Z := 0x37.

(** [msg[i:]] subscripts the [can.Message] object itself, not its payload.
    The [Message] class of the [can] package defines no [__getitem__], so
    the subscript raises [TypeError], whatever the message and the index. *)
Definition msg_getitem (msg : Message) (i : Z) : result Message :=
  Raise TypeError.

(** [msg_ext.data += tail] *)
Definition data_extend (msg_ext : Message) (tail : list Z) : Message :=
  {| arbitration_id := arbitration_id msg_ext; data := data msg_ext ++ tail |}.

(** ** Data extractors: the [FrameWithData] classes *)

Inductive FrameWithData :=
| ReadByIdentifier
| ReadByAddress
| AuthenticationSeed.

Module ReadByIdentifier.
Definition _data_from_frame (msg : Message) : result (list Z) :=
  Ok (slice_from (data msg) 4).
End ReadByIdentifier.

Module ReadByAddress.
Definition _data_from_frame (msg : Message) : result (list Z) :=
  addr_siz_len ← index (data msg) 2;
  let byte_start_data := addr_siz_len mod 0x10 + addr_siz_len / 0x10 in
  Ok (slice_from (data msg) (3 + byte_start_data)).
End ReadByAddress.

Module AuthenticationSeed.
Definition _data_from_frame (msg : Message) : result (list Z) :=
  Ok (slice_from (data msg) 3).
End AuthenticationSeed.

(** Method dispatch on the handler object. *)
Definition handler_data_from_frame (h : FrameWithData) : Message -> result (list Z) :=
  match h with
  | ReadByIdentifier => ReadByIdentifier._data_from_frame
  | ReadByAddress => ReadByAddress._data_from_frame
  | AuthenticationSeed => AuthenticationSeed._data_from_frame
  end.

(** The [handlers] dictionary of [Action._data_from_frame]. *)
Definition handlers : gmap Z FrameWithData :=
  {[ 0x62 := ReadByIdentifier; 0x63 := ReadByAddress; 0x29 := AuthenticationSeed ]}.

(** ** The [Action] object *)

Record Action := mkAction {
  my_id : Z;
  id_ecu : list Z
}.

(** [Action.__verify_frame] *)
Definition verify_frame (self : Action) (msg : Message) (sid : Z) : result bool :=
  if negb (arbitration_id msg mod 0x100 =? my_id self) then Ok false
  else
    b0 ← index (data msg) 0;
    if negb (b0 =? 0x10) then
      b1 ← index (data msg) 1;
      if negb (b1 =? sid + 0x40) then Ok false else Ok true
    else
      b2 ← index (data msg) 2;
      if negb (b2 =? sid + 0x40) then Ok false else Ok true.

(** [Action._data_from_frame]; the argument is [None] when the caller hands
    over the absent response of [_passive_response]. *)
Definition data_from_frame (msg : option Message) : result (option (list Z)) :=
  match msg with
  | None => Ok (Some [1; 2; 3; 4; 5])
  | Some msg =>
      b0 ← index (data msg) 0;
      code ← (if negb (b0 =? 0x10) then index (data msg) 1 else index (data msg) 2);
      match handlers !! code with
      | Some handler => d ← handler_data_from_frame handler msg; Ok (Some d)
      | None => Ok None
      end
  end.

(** [Action.__algorithm] *)
Definition bit_width : Z := 8.

Definition algorithm_step (key : list Z) (value : Z) : list Z :=
  let value := if value <? 0 then Z.shiftl 1 bit_width + value else value in
  key ++ [Z.land value (Z.shiftl 1 bit_width - 1)].

Definition algorithm (seed : list Z) : list Z :=
  fold_left algorithm_step seed [].

(** ** Hexadecimal formatting *)

(** Python's [hex] builtin on integers. *)
Definition hex (n : Z) : string :=
  if n <? 0
  then "-0x" +:+ HexadecimalString.NilZero.string_of_uint (N.to_hex_uint (Z.to_N (- n)))
  else "0x" +:+ HexadecimalString.NilZero.string_of_uint (N.to_hex_uint (Z.to_N n)).

(** [s[i:]] on strings, for a non-negative literal [i]. *)
Fixpoint str_slice_from (i : nat) (s : string) : string :=
  match i, s with
  | O, _ => s
  | S i', String _ s' => str_slice_from i' s'
  | S _, EmptyString => EmptyString
  end.

Definition list_to_number_step (number : string) (item : Z) : string :=
  let number := if item <=? 0xF then number +:+ "0" else number in
  number +:+ str_slice_from 2 (hex item).

(** [Action._list_to_number] *)
Definition list_to_number (l : list Z) : string :=
  fold_left list_to_number_step l "".

(** ** The world: bus, logger, frame generator and clock *)

(** Calls made on the frame generator ([self.generate]). *)
Inductive Request :=
| read_data_by_identifier (id identifier : Z)
| authentication_seed (id : Z)
| authentication_key (id : Z) (key : list Z).

Inductive Event :=
| LogInfo (s : string)
| LogError (s : string)
| Generate (r : Request).

(** [incoming] scripts the successive results of [bus.recv(3)]: [Some msg]
    for a frame received in time, [None] for a poll that timed out; once
    the script is exhausted every poll times out.  [events] is the
    chronological record of log lines and generator calls, and [now] the
    reading of the clock. *)
Record World := mkWorld {
  incoming : list (option Message);
  events : list Event;
  now : string
}.

Definition M (A : Type) : Type := World -> result A * World.

#[export] Instance M_ret : MRet M := fun _ a w => (Ok a, w).
#[export] Instance M_bind : MBind M := fun _ _ f c w =>
  match c w with
  | (Ok a, w') => f a w'
  | (Raise e, w') => (Raise e, w')
  end.

Definition lift {A} (r : result A) : M A := fun w => (r, w).

Definition emit (e : Event) : M unit := fun w =>
  (Ok tt, {| incoming := incoming w; events := events w ++ [e]; now := now w |}).

(** Modelled from the spec: [log_info_message] and [log_error_message] come
    from [utils.logger], which is not part of the sources; a call adds one
    line to the record. *)
Definition log_info_message (s : string) : M unit := emit (LogInfo s).
Definition log_error_message (s : string) : M unit := emit (LogError s).

(** Modelled from the spec: the frame generator of [actions.generate_frames]
    is not part of the sources; the core only depends on its being invoked,
    so a call is recorded with its arguments. *)
Definition generate (r : Request) : M unit := emit (Generate r).

(** ** Response collector *)

(** The polling loop of [Action.__collect_response], entered at a call of
    [self.bus.recv(3)] with the current [flag] and [msg_ext].  It returns
    the final [(flag, msg_ext, msg)] and the polls left unread. *)
Fixpoint collect_loop (flag : bool) (msg_ext : option Message)
    (polls : list (option Message))
  : result (bool * option Message * option Message) * list (option Message) :=
  match polls with
  | [] => (Ok (flag, msg_ext, None), [])
  | None :: rest => (Ok (flag, msg_ext, None), rest)
  | Some msg :: rest =>
      match index (data msg) 0 with
      | Raise e => (Raise e, rest)
      | Ok b0 =>
          if b0 =? 0x10 then
            match msg_getitem msg 1 with
            | Raise e => (Raise e, rest)
            | Ok ext => collect_loop true (Some ext) rest
            end
          else if flag && ((0x20 <? b0) && (b0 <? 0x30)) then
            match msg_ext with
            | Some ext => collect_loop flag (Some (data_extend ext (slice_from (data msg) 1))) rest
            | None => (Raise AttributeError, rest)
            end
          else (Ok (flag, msg_ext, Some msg), rest)
      end
  end.

(** [Action.__collect_response] *)
Definition collect_response (self : Action) (sid : Z) : M (option Message) := fun w =>
  let '(r, rest) := collect_loop false None (incoming w) in
  let w' := {| incoming := rest; events := events w; now := now w |} in
  match r with
  | Raise e => (Raise e, w')
  | Ok (flag, msg_ext, msg) =>
      let msg := if flag then msg_ext else msg in
      match msg with
      | None => (Ok None, w')
      | Some m =>
          match verify_frame self m sid with
          | Raise e => (Raise e, w')
          | Ok true => (Ok (Some m), w')
          | Ok false => (Ok None, w')
          end
      end
  end.

(** ** Orchestration *)

(** [Action._to_json_error] *)
Definition to_json_error (error : string) (no_errors : Z) : M Envelope := fun w =>
  (Ok {| ERROR := error; No_of_errors := no_errors; time_stamp := now w |}, w).

(** [Action._passive_response].  The source builds the error envelope and
    leaves the [raise CustomError(response_json)] commented out, so the
    envelope is dropped and the absent response is returned. *)
Definition passive_response (self : Action) (sid : Z) (error_str : string)
  : M (option Message) :=
  log_info_message "Collecting the response";;
  response ← collect_response self sid;
  match response with
  | None =>
      log_error_message error_str;;
      response_json ← to_json_error "interrupted" 1;
      mret response
  | Some _ => mret response
  end.

(** Iterating over the result of [_data_from_frame]: [None] is not
    iterable. *)
Definition iterable (d : option (list Z)) : result (list Z) :=
  match d with
  | Some l => Ok l
  | None => Raise TypeError
  end.

(** [str(n)] for an integer, as an f-string renders it. *)
Definition str (n : Z) : string := DecimalString.NilZero.string_of_int (Z.to_int n).

(** [Action._read_by_identifier] *)
Definition read_by_identifier (self : Action) (id identifier : Z) : M string :=
  log_info_message "Read from identifier {identifier}";;
  generate (read_data_by_identifier id identifier);;
  frame_response ← passive_response self READ_BY_IDENTIFIER
    ("Error reading data from identifier " +:+ str identifier);
  data ← lift (data_from_frame frame_response);
  items ← lift (iterable data);
  mret (list_to_number items).

(** [Action._authentication] *)
Definition authentication (self : Action) (id : Z) : M unit :=
  log_info_message "Authenticating";;
  generate (authentication_seed id);;
  frame_response ← passive_response self AUTHENTICATION "Error requesting seed";
  seed ← lift (data_from_frame frame_response);
  values ← lift (iterable seed);
  let key := algorithm values in
  generate (authentication_key id key);;
  passive_response self AUTHENTICATION "Error sending key";;
  mret tt.

(** ** Specification-side definitions *)

(** The offset at which a frame carries its response code: 2 behind a
    First-Frame marker, 1 otherwise. *)
Definition service_code_offset (payload : list Z) : nat :=
  match payload with
  | b0 :: _ => if b0 =? 0x10 then 2%nat else 1%nat
  | [] => 1%nat
  end.

Definition is_lower_hex (c : ascii) : bool :=
  let n := N_of_ascii c in
  ((48 <=? n) && (n <=? 57) || (97 <=? n) && (n <=? 102))%N.

Definition hex_value (c : ascii) : option Z :=
  let n := Z.of_N (N_of_ascii c) in
  if (48 <=? n) && (n <=? 57) then Some (n - 48)
  else if (97 <=? n) && (n <=? 102) then Some (n - 87)
  else None.

Fixpoint all_chars (p : ascii -> bool) (s : string) : bool :=
  match s with
  | EmptyString => true
  | String c s' => p c && all_chars p s'
  end.

(** The decoder the round trip is stated against: two hexadecimal digits
    per byte. *)
Fixpoint number_to_list (s : string) : option (list Z) :=
  match s with
  | EmptyString => Some []
  | String _ EmptyString => None
  | String h (String l rest) =>
      hi ← hex_value h;
      lo ← hex_value l;
      tail ← number_to_list rest;
      Some (0x10 * hi + lo :: tail)
  end.

(** The two characters [_list_to_number] adds for one item. *)
Definition two_digits (item : Z) : string :=
  (if item <=? 0xF then "0" else "") +:+ str_slice_from 2 (hex item).

(** The items of a list rendered one after the other. *)
Definition concat_digits (l : list Z) : string :=
  fold_right (fun item rest => two_digits item +:+ rest) "" l.

(** One byte renders as two lowercase digits that decode to its high and
    low nibble. *)
Definition two_digits_ok (b : Z) : bool :=
  match two_digits b with
  | String h (String l EmptyString) =>
      is_lower_hex h && is_lower_hex l
      && bool_decide (hex_value h = Some (b / 0x10))
      && bool_decide (hex_value l = Some (b mod 0x10))
  | _ => false
  end.

(** The per-item transform of the key computation. *)
Definition key_byte (value : Z) : Z :=
  Z.land (if value <? 0 then value + 0x100 else value) 0xFF.

(** The next poll of the bus times out. *)
Definition poll_times_out (polls : list (option Message)) : Prop :=
  match polls with
  | [] | None :: _ => True
  | Some _ :: _ => False
  end.

(** What [__collect_response] answers once the loop has settled on the
    frame [m]: the frame if the verifier accepts it, nothing if it rejects
    it, and the verifier's error otherwise. *)
Definition accept_if_verified (self : Action) (sid : Z) (m : Message)
  : result (option Message) :=
  match verify_frame self m sid with
  | Ok true => Ok (Some m)
  | Ok false => Ok None
  | Raise e => Raise e
  end.

(** The world after the collector has read the bus down to [rest]. *)
Definition polled (w : World) (rest : list (option Message)) : World :=
  {| incoming := rest; events := events w; now := now w |}.

(** The world after [added] has been written to the record. *)
Definition logged (w : World) (added : list Event) : World :=
  {| incoming := incoming w; events := events w ++ added; now := now w |}.

(** * Properties *)

(** ** Indexing and slicing *)

Lemma index_Some {A} (l : list A) i x : l !! i = Some x -> index l i = Ok x.
Proof. unfold index. now intros ->. Qed.

Lemma index_None {A} (l : list A) i : l !! i = None -> index l i = Raise IndexError.
Proof. unfold index. now intros ->. Qed.

Lemma index_Raise {A} (l : list A) i e :
  index l i = Raise e <-> e = IndexError /\ (length l <= i)%nat.
Proof.
  unfold index. destruct (l !! i) eqn:E.
  - split; [discriminate|]. intros [_ Hle].
    apply lookup_lt_Some in E. lia.
  - apply lookup_ge_None in E. split.
    + intros [= <-]. easy.
    + now intros [-> _].
Qed.

Lemma slice_from_nonneg {A} (l : list A) i :
  0 <= i -> slice_from l i = drop (Z.to_nat i) l.
Proof. intros Hi. unfold slice_from. destruct (Z.ltb_spec i 0); [lia|easy]. Qed.

Lemma slice_from_short {A} (l : list A) i :
  Z.of_nat (length l) <= i -> slice_from l i = [].
Proof.
  intros Hi. rewrite slice_from_nonneg by lia. apply drop_ge. lia.
Qed.

Lemma service_code_offset_spec payload b0 :
  payload !! 0%nat = Some b0 ->
  service_code_offset payload = if b0 =? 0x10 then 2%nat else 1%nat.
Proof. destruct payload; [discriminate|]. now intros [= ->]. Qed.

Lemma service_code_offset_bounds payload :
  (1 <= service_code_offset payload <= 2)%nat.
Proof.
  unfold service_code_offset. destruct payload as [|b0 ?]; [lia|].
  destruct (b0 =? 0x10); lia.
Qed.

(** Reading the code byte the way the source does: first byte, then the
    offset it selects. *)
Lemma read_code payload :
  (b0 ← index payload 0;
   if negb (b0 =? 0x10) then index payload 1 else index payload 2)
  = index payload (service_code_offset payload).
Proof.
  destruct payload as [|b0 rest]; [reflexivity|].
  cbn. destruct (b0 =? 0x10); reflexivity.
Qed.

Lemma handlers_lookup code :
  handlers !! code =
    if code =? 0x62 then Some ReadByIdentifier
    else if code =? 0x63 then Some ReadByAddress
    else if code =? 0x29 then Some AuthenticationSeed
    else None.
Proof.
  unfold handlers.
  destruct (Z.eqb_spec code 0x62) as [->|H1]; [reflexivity|].
  destruct (Z.eqb_spec code 0x63) as [->|H2]; [reflexivity|].
  destruct (Z.eqb_spec code 0x29) as [->|H3]; [reflexivity|].
  rewrite !lookup_insert_ne by congruence.
  apply lookup_singleton_ne. congruence.
Qed.

Lemma verify_frame_unfold self msg sid :
  verify_frame self msg sid =
    if negb (arbitration_id msg mod 0x100 =? my_id self) then Ok false
    else code ← index (data msg) (service_code_offset (data msg));
         Ok (code =? sid + 0x40).
Proof.
  unfold verify_frame. destruct (negb _); [reflexivity|].
  destruct (data msg) as [|b0 [|b1 [|b2 rest]]]; cbn; try reflexivity;
    destruct (b0 =? 0x10); cbn; try reflexivity;
    match goal with |- context [negb (?c =? ?d)] => destruct (c =? d) end;
    reflexivity.
Qed.

Lemma data_from_frame_unfold msg :
  data_from_frame (Some msg) =
    code ← index (data msg) (service_code_offset (data msg));
    match handlers !! code with
    | Some handler => d ← handler_data_from_frame handler msg; Ok (Some d)
    | None => Ok None
    end.
Proof.
  unfold data_from_frame.
  destruct (data msg) as [|b0 rest]; [reflexivity|].
  cbn. destruct (b0 =? 0x10); reflexivity.
Qed.

(** ** Response verifier *)

(** C1 as stated fails.  With a matching sender and a payload of one byte
    there is no byte at the service-code offset: verification neither
    accepts nor rejects the frame, it raises [IndexError]. *)
Lemma verify_frame_short_payload_raises :
  arbitration_id (mkMessage 0x18DAFA [0x03]) mod 0x100 = my_id (mkAction 0xFA [])
  /\ data (mkMessage 0x18DAFA [0x03]) !! 1%nat <> Some (0x22 + 0x40)
  /\ verify_frame (mkAction 0xFA []) (mkMessage 0x18DAFA [0x03]) 0x22
     = Raise IndexError
  /\ verify_frame (mkAction 0xFA []) (mkMessage 0x18DAFA [0x03]) 0x22 <> Ok false.
Proof. repeat split; (reflexivity || discriminate). Qed.

(** C1, amended.  For every frame, verification accepts exactly when the
    identifier modulo 0x100 is the expected sender id and the byte at the
    service-code offset (2 behind the First-Frame marker 0x10, 1 otherwise)
    is [sid + 0x40].  It rejects, returning [False], exactly when the
    sender id differs, or the payload holds a byte at that offset and the
    byte is not [sid + 0x40].  When the sender matches and the payload has
    no byte at that offset it raises [IndexError]; it raises nothing
    else. *)
Theorem verify_frame_verdict (self : Action) (msg : Message) (sid : Z) :
  (verify_frame self msg sid = Ok true <->
     arbitration_id msg mod 0x100 = my_id self /\
     data msg !! service_code_offset (data msg) = Some (sid + 0x40))
  /\ (verify_frame self msg sid = Ok false <->
     arbitration_id msg mod 0x100 <> my_id self \/
     exists code : Z,
       data msg !! service_code_offset (data msg) = Some code /\
       code <> sid + 0x40)
  /\ (verify_frame self msg sid = Raise IndexError <->
     arbitration_id msg mod 0x100 = my_id self /\
     data msg !! service_code_offset (data msg) = None)
  /\ (forall e : exn, verify_frame self msg sid = Raise e -> e = IndexError).
Proof.
  rewrite verify_frame_unfold. unfold index.
  destruct (Z.eqb_spec (arbitration_id msg mod 0x100) (my_id self)) as [Hid|Hid];
    cbn [negb].
  - destruct (data msg !! service_code_offset (data msg)) as [code|]; cbn.
    + destruct (Z.eqb_spec code (sid + 0x40)) as [->|Hne].
      * split; [easy|]. split; [|split; [|easy]].
        -- split; [discriminate|].
           intros [Habs|(c & Hc & Habs)]; [contradiction|congruence].
        -- split; [discriminate|]. intros [_ Habs]. discriminate.
      * split; [|split; [|split; [|easy]]].
        -- split; [discriminate|]. intros [_ Habs]. congruence.
        -- split; [|easy]. intros _. right. now exists code.
        -- split; [discriminate|]. intros [_ Habs]. discriminate.
    + split; [|split; [|split]].
      * split; [discriminate|]. intros [_ Habs]. discriminate.
      * split; [discriminate|].
        intros [Habs|(c & Hc & _)]; [contradiction|discriminate].
      * easy.
      * now intros e [= <-].
  - split; [|split; [|split; [|easy]]].
    + split; [discriminate|]. intros [Habs _]. contradiction.
    + split; [|easy]. intros _. now left.
    + split; [discriminate|]. intros [Habs _]. contradiction.
Qed.

Lemma verify_frame_verdict_witness :
  verify_frame (mkAction 0xFA []) (mkMessage 0x18DAFA [0x03; 0x62; 0xF1; 0x90]) 0x22
    = Ok true
  /\ verify_frame (mkAction 0xFA []) (mkMessage 0x18DAFB [0x03]) 0x22
    = Ok false
  /\ verify_frame (mkAction 0xFA []) (mkMessage 0x18DAFA [0x03; 0x7F; 0x22; 0x31]) 0x22
    = Ok false
  /\ verify_frame (mkAction 0xFA []) (mkMessage 0x18DAFA [0x03]) 0x22
    = Raise IndexError.
Proof.
  split; [|split; [|split]].
  - apply (proj1 (verify_frame_verdict _ _ _)). split; reflexivity.
  - apply (proj1 (proj2 (verify_frame_verdict _ _ _))). left. discriminate.
  - apply (proj1 (proj2 (verify_frame_verdict _ _ _))). right.
    exists 0x7F. split; [reflexivity|discriminate].
  - apply (proj1 (proj2 (proj2 (verify_frame_verdict _ _ _)))).
    split; reflexivity.
Defined.

(** ** Data extractor *)



(** C9. Extraction dispatches on the code found at the service-code offset:
    code 0x62 returns the payload from offset 4 on, so that
    [[0x62; 0x62; id_hi; id_lo; 0xAA; 0xBB]] yields [[0xAA; 0xBB]], and a
    code without a registered handler yields no data. *)
Theorem data_from_frame_dispatch :
  (forall (msg : Message) (code : Z),
     data msg !! service_code_offset (data msg) = Some code ->
     data_from_frame (Some msg)
       = match handlers !! code with
         | Some handler => d ← handler_data_from_frame handler msg; Ok (Some d)
         | None => Ok None
         end
     /\ (code = 0x62 -> data_from_frame (Some msg) = Ok (Some (drop 4 (data msg))))
     /\ (handlers !! code = None -> data_from_frame (Some msg) = Ok None))
  /\ (forall aid id_hi id_lo : Z,
     data_from_frame (Some (mkMessage aid [0x62; 0x62; id_hi; id_lo; 0xAA; 0xBB]))
       = Ok (Some [0xAA; 0xBB])).
Proof.
  split.
  - intros msg code Hcode.
    assert (Hd : data_from_frame (Some msg)
                 = match handlers !! code with
                   | Some handler => d ← handler_data_from_frame handler msg; Ok (Some d)
                   | None => Ok None
                   end).
    { rewrite data_from_frame_unfold, (index_Some _ _ _ Hcode). reflexivity. }
    split; [exact Hd|]. split.
    + intros ->. rewrite Hd. reflexivity.
    + intros Hnone. rewrite Hd, Hnone. reflexivity.
  - intros aid id_hi id_lo. reflexivity.
Qed.

Lemma data_from_frame_dispatch_witness :
  data_from_frame (Some (mkMessage 0x18DAFA [0x10; 0x0A; 0x62; 0xF1; 0x90; 1; 2; 3]))
    = Ok (Some [0x90; 1; 2; 3])
  /\ data_from_frame (Some (mkMessage 0x18DAFA [0x03; 0x69; 0x01; 7; 7]))
    = Ok None.
Proof.
  split.
  - apply (proj1 (proj2 (proj1 data_from_frame_dispatch
      (mkMessage 0x18DAFA [0x10; 0x0A; 0x62; 0xF1; 0x90; 1; 2; 3]) 0x62 eq_refl)) eq_refl).
  - apply (proj2 (proj2 (proj1 data_from_frame_dispatch
      (mkMessage 0x18DAFA [0x03; 0x69; 0x01; 7; 7]) 0x69 eq_refl)) eq_refl).
Defined.

(** ** Short payloads *)

(** C10 as stated fails.  A ReadByIdentifier response of three bytes is
    shorter than the offset 4 its data is read from, and extraction still
    returns: the read is a slice, and yields the empty sequence. *)
Lemma short_read_by_identifier_total :
  (length (data (mkMessage 0x18DAFA [0x03; 0x62; 0xF1])%Z) < 4)%nat
  /\ data_from_frame (Some (mkMessage 0x18DAFA [0x03; 0x62; 0xF1])) = Ok (Some [])
  /\ data_from_frame (Some (mkMessage 0x18DAFA [0x03; 0x62; 0xF1])) <> Raise IndexError.
Proof. split; [cbn; lia|]. split; [reflexivity|discriminate]. Qed.

(** C10, amended.  The payload is indexed without a length check at the
    service-code offset and, for ReadByAddress, at offset 2.  Verification
    raises [IndexError] exactly when the sender matches and the payload has
    no byte at the service-code offset; extraction raises exactly when the
    payload has no byte at the service-code offset, or the code is 0x63 and
    there is no byte at offset 2.  No other error arises, and a sender
    mismatch returns [False] before any indexing.  The reads from offset 4
    (ReadByIdentifier), 3 (seed) and 3 plus the nibble sum (ReadByAddress)
    are slices: they never fail and return the empty sequence on a payload
    that short. *)
Theorem payload_index_error_iff (self : Action) (msg : Message) (sid : Z) :
  (verify_frame self msg sid = Raise IndexError <->
     arbitration_id msg mod 0x100 = my_id self /\
     (length (data msg) <= service_code_offset (data msg))%nat)
  /\ (data_from_frame (Some msg) = Raise IndexError <->
     (length (data msg) <= service_code_offset (data msg))%nat \/
     (data msg !! service_code_offset (data msg) = Some 0x63 /\
      (length (data msg) <= 2)%nat))
  /\ (forall e : exn,
      verify_frame self msg sid = Raise e \/ data_from_frame (Some msg) = Raise e ->
      e = IndexError)
  /\ ReadByIdentifier._data_from_frame msg = Ok (drop 4 (data msg))
  /\ AuthenticationSeed._data_from_frame msg = Ok (drop 3 (data msg))
  /\ ((length (data msg) <= 4)%nat -> ReadByIdentifier._data_from_frame msg = Ok [])
  /\ ((length (data msg) <= 3)%nat -> AuthenticationSeed._data_from_frame msg = Ok [])
  /\ (arbitration_id msg mod 0x100 <> my_id self ->
      verify_frame self msg sid = Ok false)
  /\ (forall b : Z,
      data msg !! 2%nat = Some b ->
      is_byte b ->
      ReadByAddress._data_from_frame msg
        = Ok (drop (Z.to_nat (3 + b mod 0x10 + b / 0x10)) (data msg))
      /\ (Z.of_nat (length (data msg)) <= 3 + b mod 0x10 + b / 0x10 ->
          ReadByAddress._data_from_frame msg = Ok [])).
Proof.
  set (off := service_code_offset (data msg)).
  assert (Hverify : forall e, verify_frame self msg sid = Raise e <->
            e = IndexError /\ arbitration_id msg mod 0x100 = my_id self /\
            (length (data msg) <= off)%nat).
  { intros e. rewrite verify_frame_unfold. fold off.
    destruct (Z.eqb_spec (arbitration_id msg mod 0x100) (my_id self)) as [Hid|Hid];
      cbn [negb].
    - destruct (index (data msg) off) as [code|e'] eqn:E; cbn.
      + split; [discriminate|]. intros (-> & _ & Hle).
        assert (index (data msg) off = Raise IndexError) as Habs
          by (apply index_Raise; easy).
        congruence.
      + apply index_Raise in E as [-> Hle]. split.
        * intros [= <-]. easy.
        * now intros (-> & _ & _).
    - split; [discriminate|]. intros (_ & ? & _). contradiction. }
  assert (Hextract : forall e, data_from_frame (Some msg) = Raise e <->
            e = IndexError /\
            ((length (data msg) <= off)%nat \/
             (data msg !! off = Some 0x63 /\ (length (data msg) <= 2)%nat))).
  { intros e. rewrite data_from_frame_unfold. fold off. unfold index at 1.
    destruct (data msg !! off) as [code|] eqn:E; cbn.
    - pose proof (lookup_lt_Some _ _ _ E) as Hlt.
      rewrite handlers_lookup.
      destruct (Z.eqb_spec code 0x62) as [->|H1]; cbn.
      { split; [discriminate|]. intros (_ & [Hle | [Heq _]]); [lia|discriminate]. }
      destruct (Z.eqb_spec code 0x63) as [->|H2]; cbn.
      { unfold ReadByAddress._data_from_frame.
        destruct (index (data msg) 2) as [b|e'] eqn:E2; cbn.
        - split; [discriminate|]. intros (_ & [Hle | [_ Hle]]); [lia|].
          assert (index (data msg) 2 = Raise IndexError) as Habs
            by (apply index_Raise; easy).
          congruence.
        - apply index_Raise in E2 as [-> Hle]. split.
          + intros [= <-]. split; [reflexivity|]. right. easy.
          + now intros (-> & _). }
      destruct (Z.eqb_spec code 0x29) as [->|H3]; cbn.
      { split; [discriminate|]. intros (_ & [Hle | [Heq _]]); [lia|discriminate]. }
      split; [discriminate|]. intros (_ & [Hle | [Heq _]]); [lia|congruence].
    - apply lookup_ge_None in E. split.
      + intros [= <-]. split; [reflexivity|]. now left.
      + now intros (-> & _). }
  split; [|split; [|split; [|split; [|split; [|split; [|split; [|split]]]]]]].
  - rewrite Hverify. intuition.
  - rewrite Hextract. intuition.
  - intros e [H|H]; [apply Hverify in H | apply Hextract in H]; apply H.
  - reflexivity.
  - reflexivity.
  - intros Hle. unfold ReadByIdentifier._data_from_frame.
    rewrite slice_from_short by lia. reflexivity.
  - intros Hle. unfold AuthenticationSeed._data_from_frame.
    rewrite slice_from_short by lia. reflexivity.
  - intros Hid. rewrite verify_frame_unfold.
    destruct (Z.eqb_spec (arbitration_id msg mod 0x100) (my_id self));
      [contradiction|reflexivity].
  - intros b Hb [Hlo Hhi].
    pose proof (Z.mod_pos_bound b 0x10 ltac:(lia)).
    pose proof (Z.div_pos b 0x10 Hlo ltac:(lia)).
    unfold ReadByAddress._data_from_frame. rewrite (index_Some _ _ _ Hb). cbn.
    split.
    + rewrite slice_from_nonneg by lia. do 2 f_equal. lia.
    + intros Hle. rewrite slice_from_short by lia. reflexivity.
Qed.

Lemma payload_index_error_iff_witness :
  verify_frame (mkAction 0xFA []) (mkMessage 0x18DAFA [0x03]) 0x22 = Raise IndexError
  /\ data_from_frame (Some (mkMessage 0x18DAFA [0x03; 0x63])) = Raise IndexError
  /\ ReadByIdentifier._data_from_frame (mkMessage 0x18DAFA [0x03; 0x62; 0xF1]) = Ok []
  /\ ReadByAddress._data_from_frame (mkMessage 0x18DAFA [0x03; 0x63; 0x14; 0x00]) = Ok [].
Proof.
  split; [|split; [|split]].
  - apply (proj1 (payload_index_error_iff (mkAction 0xFA [])
                    (mkMessage 0x18DAFA [0x03]) 0x22)).
    split; [reflexivity|]. cbn. lia.
  - apply (proj1 (proj2 (payload_index_error_iff (mkAction 0xFA [])
                    (mkMessage 0x18DAFA [0x03; 0x63]) 0x22))).
    right. split; [reflexivity|]. cbn. lia.
  - apply (proj1 (proj2 (proj2 (proj2 (proj2 (proj2 (payload_index_error_iff
             (mkAction 0xFA []) (mkMessage 0x18DAFA [0x03; 0x62; 0xF1]) 0x22))))))).
    cbn. lia.
  - apply (proj2 (proj2 (proj2 (proj2 (proj2 (proj2 (proj2 (proj2
             (payload_index_error_iff (mkAction 0xFA [])
                (mkMessage 0x18DAFA [0x03; 0x63; 0x14; 0x00]) 0x22))))))))
             0x14 eq_refl); [unfold is_byte; lia | vm_compute; discriminate].
Defined.

(** ** Key computation *)

Lemma algorithm_step_key_byte key value :
  algorithm_step key value = key ++ [key_byte value].
Proof.
  unfold algorithm_step, key_byte, bit_width.
  change (Z.shiftl 1 8) with 0x100. change (0x100 - 1) with 0xFF.
  destruct (value <? 0); [|reflexivity].
  now rewrite (Z.add_comm 0x100 value).
Qed.

Lemma algorithm_fold seed : forall key,
  fold_left algorithm_step seed key = key ++ map key_byte seed.
Proof.
  induction seed as [|v seed IH]; intros key; cbn [fold_left map].
  - now rewrite app_nil_r.
  - rewrite IH, algorithm_step_key_byte, <- app_assoc. reflexivity.
Qed.

Lemma algorithm_map seed : algorithm seed = map key_byte seed.
Proof. unfold algorithm. now rewrite algorithm_fold. Qed.

Lemma key_byte_mod value : key_byte value = value mod 0x100.
Proof.
  unfold key_byte. change 0xFF with (Z.ones 8).
  rewrite Z.land_ones by lia. change (2 ^ 8) with 0x100.
  destruct (value <? 0); [|reflexivity].
  rewrite <- (Z.mul_1_l 0x100) at 1. now rewrite Z.mod_add.
Qed.

Lemma key_byte_signed value :
  -128 <= value <= 255 ->
  key_byte value = if value <? 0 then value + 0x100 else value.
Proof.
  intros Hv. rewrite key_byte_mod.
  destruct (Z.ltb_spec value 0).
  - rewrite <- (Z.mod_add value 1 0x100) by lia.
    rewrite Z.mod_small; lia.
  - rewrite Z.mod_small; lia.
Qed.

(** C6. For a seed of signed 8-bit values (each in [-128, 255]) the key has
    the length and order of the seed, every key byte lies in [0, 255], a
    negative value has 256 added, and a seed byte of -1 gives the key
    byte 255; the key is the per-item image under add-256-if-negative
    followed by the mask 0xFF. *)
Theorem algorithm_key_bytes (seed : list Z) :
  Forall (fun v => -128 <= v <= 255) seed ->
  length (algorithm seed) = length seed
  /\ Forall is_byte (algorithm seed)
  /\ (forall (i : nat) (v : Z), seed !! i = Some v ->
        algorithm seed !! i = Some (if v <? 0 then v + 0x100 else v))
  /\ (forall i : nat, seed !! i = Some (-1) -> algorithm seed !! i = Some 0xFF)
  /\ algorithm seed
       = map (fun v => Z.land (if v <? 0 then v + 0x100 else v) 0xFF) seed.
Proof.
  intros Hseed. rewrite algorithm_map.
  assert (Hnth : forall (i : nat) (v : Z), seed !! i = Some v ->
            map key_byte seed !! i = Some (if v <? 0 then v + 0x100 else v)).
  { intros i v Hi. change (map key_byte seed) with (key_byte <$> seed).
    rewrite list_lookup_fmap, Hi. cbn. f_equal. apply key_byte_signed.
    rewrite Forall_forall in Hseed. apply Hseed.
    apply list_elem_of_lookup. eauto. }
  split; [apply length_map|]. split; [|split; [exact Hnth|split]].
  - apply Forall_forall. intros k Hk.
    apply list_elem_of_In, in_map_iff in Hk as (v & <- & _).
    rewrite key_byte_mod. unfold is_byte.
    pose proof (Z.mod_pos_bound v 0x100 ltac:(lia)). lia.
  - intros i Hi. apply (Hnth i (-1) Hi).
  - reflexivity.
Qed.

Lemma algorithm_key_bytes_witness :
  length (algorithm [-1; 5; -128; 255]) = 4%nat
  /\ Forall is_byte (algorithm [-1; 5; -128; 255])
  /\ algorithm [-1; 5; -128; 255] !! 0%nat = Some 0xFF.
Proof.
  assert (Hseed : Forall (fun v => -128 <= v <= 255) [-1; 5; -128; 255]).
  { repeat constructor; lia. }
  destruct (algorithm_key_bytes [-1; 5; -128; 255] Hseed)
    as (Hlen & Hbytes & _ & Hminus & _).
  split; [exact Hlen|]. split; [exact Hbytes|].
  apply Hminus. reflexivity.
Defined.

(** ** Hexadecimal formatting *)

Lemma append_assoc (s1 s2 s3 : string) : (s1 +:+ s2) +:+ s3 = s1 +:+ (s2 +:+ s3).
Proof.
  induction s1 as [|c s1 IH]; [reflexivity|].
  change (String c ((s1 +:+ s2) +:+ s3) = String c (s1 +:+ (s2 +:+ s3))).
  now f_equal.
Qed.

Lemma append_empty_r (s : string) : s +:+ "" = s.
Proof.
  induction s as [|c s IH]; [reflexivity|].
  change (String c (s +:+ "") = String c s). now f_equal.
Qed.

Lemma list_to_number_step_two_digits number item :
  list_to_number_step number item = number +:+ two_digits item.
Proof.
  unfold list_to_number_step, two_digits.
  destruct (item <=? 0xF); [apply append_assoc|reflexivity].
Qed.

Lemma list_to_number_fold l : forall number,
  fold_left list_to_number_step l number = number +:+ concat_digits l.
Proof.
  induction l as [|item l IH]; intros number; cbn [fold_left concat_digits fold_right].
  - now rewrite append_empty_r.
  - rewrite IH, list_to_number_step_two_digits. apply append_assoc.
Qed.

Lemma list_to_number_concat l : list_to_number l = concat_digits l.
Proof. unfold list_to_number. now rewrite list_to_number_fold. Qed.

Lemma two_digits_ok_bytes :
  forallb two_digits_ok (map Z.of_nat (seq 0 256)) = true.
Proof. vm_compute. reflexivity. Qed.

Lemma two_digits_byte (b : Z) :
  is_byte b ->
  exists h l : ascii,
    two_digits b = String h (String l EmptyString)
    /\ is_lower_hex h = true /\ is_lower_hex l = true
    /\ hex_value h = Some (b / 0x10) /\ hex_value l = Some (b mod 0x10).
Proof.
  intros [Hlo Hhi].
  assert (Hok : two_digits_ok b = true).
  { apply (proj1 (forallb_forall _ _) two_digits_ok_bytes).
    apply in_map_iff. exists (Z.to_nat b). split; [lia|].
    apply in_seq. lia. }
  unfold two_digits_ok in Hok.
  destruct (two_digits b) as [|h [|l [|? ?]]]; try discriminate.
  exists h, l.
  repeat (apply andb_prop in Hok as [Hok ?]).
  repeat match goal with
         | H : bool_decide _ = true |- _ => apply bool_decide_eq_true in H
         end.
  easy.
Qed.

Lemma concat_digits_cons (b : Z) (l : list Z) :
  concat_digits (b :: l) = two_digits b +:+ concat_digits l.
Proof. reflexivity. Qed.

(** C7. For a list [s] of integers in [0, 255], [_list_to_number] returns
    exactly [2 * length s] lowercase hexadecimal characters, two per byte
    and in order, and decoding them two at a time gives [s] back. *)
Theorem list_to_number_roundtrip (s : list Z) :
  Forall is_byte s ->
  String.length (list_to_number s) = (2 * length s)%nat
  /\ all_chars is_lower_hex (list_to_number s) = true
  /\ list_to_number s = concat_digits s
  /\ number_to_list (list_to_number s) = Some s.
Proof.
  rewrite list_to_number_concat.
  induction 1 as [|b s Hb Hs (IHlen & IHhex & _ & IHdec)].
  - repeat split.
  - destruct (two_digits_byte b Hb) as (h & l & Hdigits & Hh & Hl & Hhi & Hlo).
    rewrite concat_digits_cons, Hdigits.
    change (String h (String l "") +:+ concat_digits s)
      with (String h (String l (concat_digits s))).
    repeat split.
    + cbn [String.length length]. rewrite IHlen. lia.
    + cbn [all_chars]. now rewrite Hh, Hl, IHhex.
    + cbn [number_to_list]. rewrite Hhi, Hlo, IHdec. cbn.
      do 2 f_equal. symmetry. apply Z.div_mod. lia.
Qed.

Lemma list_to_number_roundtrip_witness :
  String.length (list_to_number [0x00; 0x0F; 0x10; 0xAB; 0xFF]) = 10%nat
  /\ number_to_list (list_to_number [0x00; 0x0F; 0x10; 0xAB; 0xFF])
     = Some [0x00; 0x0F; 0x10; 0xAB; 0xFF].
Proof.
  assert (Hs : Forall is_byte [0x00; 0x0F; 0x10; 0xAB; 0xFF]).
  { repeat constructor; unfold is_byte; lia. }
  destruct (list_to_number_roundtrip [0x00; 0x0F; 0x10; 0xAB; 0xFF] Hs)
    as (Hlen & _ & _ & Hdec).
  split; [exact Hlen|exact Hdec].
Defined.

(** ** Response collector *)

Lemma collect_loop_timeout flag msg_ext tail :
  poll_times_out tail ->
  collect_loop flag msg_ext tail = (Ok (flag, msg_ext, None), drop 1 tail).
Proof. destruct tail as [|[m|] rest]; cbn; easy. Qed.

Lemma collect_loop_first_frame flag msg_ext ff polls :
  data ff !! 0%nat = Some 0x10 ->
  collect_loop flag msg_ext (Some ff :: polls) = (Raise TypeError, polls).
Proof. intros Hff. cbn [collect_loop]. now rewrite (index_Some _ _ _ Hff). Qed.

(** C2 on the code.  The First-Frame branch subscripts the message object,
    [msg[1:]], where the Consecutive-Frame branch slices [msg.data].  Fed a
    First-Frame and two Consecutive-Frames marked 0x21 and 0x22, the
    collector raises [TypeError] at the First-Frame: the two frames behind
    it stay unread and nothing is reassembled. *)
Theorem collect_response_first_frame_raises :
  forall (self : Action) (sid aid0 aid1 aid2 : Z) (t0 t1 t2 : list Z)
         (log : list Event) (clock : string),
    collect_response self sid
      (mkWorld [Some (mkMessage aid0 (0x10 :: t0));
                Some (mkMessage aid1 (0x21 :: t1));
                Some (mkMessage aid2 (0x22 :: t2))] log clock)
    = (Raise TypeError,
       mkWorld [Some (mkMessage aid1 (0x21 :: t1));
                Some (mkMessage aid2 (0x22 :: t2))] log clock).
Proof. reflexivity. Qed.

(** ** Absent responses *)

Lemma bind_run {A B} (c : M A) (f : A -> M B) (w w' : World) (a : A) :
  c w = (Ok a, w') -> (c ≫= f) w = f a w'.
Proof. intros Hc. unfold mbind, M_bind. now rewrite Hc. Qed.

Lemma emit_run (e : Event) (w : World) :
  emit e w = (Ok tt, {| incoming := incoming w; events := events w ++ [e]; now := now w |}).
Proof. reflexivity. Qed.

(** Run the first action of a sequence, justified by [tac]. *)
Ltac run_with tac :=
  erewrite bind_run by tac; cbv beta iota; cbn [incoming events now].
Ltac run_pure := run_with ltac:(reflexivity).

Lemma collect_response_timeout self sid w :
  poll_times_out (incoming w) ->
  collect_response self sid w
  = (Ok None, {| incoming := drop 1 (incoming w); events := events w; now := now w |}).
Proof.
  intros Hpoll. unfold collect_response.
  now rewrite (collect_loop_timeout _ _ _ Hpoll).
Qed.

(** When the poll times out [_passive_response] logs the error, builds the
    envelope and returns the absent response: nothing is raised. *)
Lemma passive_response_timeout self sid error_str w :
  poll_times_out (incoming w) ->
  passive_response self sid error_str w
  = (Ok None,
     {| incoming := drop 1 (incoming w);
        events := events w ++ [LogInfo "Collecting the response"; LogError error_str];
        now := now w |}).
Proof.
  intros Hpoll. unfold passive_response, log_info_message, log_error_message.
  run_with ltac:(apply emit_run).
  run_with ltac:(apply collect_response_timeout; exact Hpoll).
  run_with ltac:(apply emit_run).
  cbn. now rewrite <- app_assoc.
Qed.

(** C3 on the code.  With no frame on the bus, and with a frame that fails
    verification, [_passive_response] returns the absent response as an
    ordinary result.  The envelope {ERROR: interrupted, No of errors: 1} is
    built and dropped: no [CustomError] carries it to the caller, which the
    docstring of the method announces. *)
Theorem passive_response_envelope_not_raised :
  (forall (self : Action) (sid : Z) (error_str : string) (log : list Event)
          (clock : string),
     passive_response self sid error_str (mkWorld [] log clock)
     = (Ok None,
        mkWorld [] (log ++ [LogInfo "Collecting the response"; LogError error_str])
                clock)
     /\ to_json_error "interrupted" 1 (mkWorld [] log clock)
        = (Ok (mkEnvelope "interrupted" 1 clock), mkWorld [] log clock))
  /\ passive_response (mkAction 0xFA []) READ_BY_IDENTIFIER "Error service"
       (mkWorld [Some (mkMessage 0x18DAFA [0x03; 0x7F; 0x22; 0x31])] [] "12:00")
     = (Ok None,
        mkWorld [] [LogInfo "Collecting the response"; LogError "Error service"]
                "12:00").
Proof.
  split.
  - intros self sid error_str log clock. split; [|reflexivity].
    now rewrite passive_response_timeout.
  - reflexivity.
Qed.

(** C4 on the code.  When the seed request obtains no response the
    authentication sequence goes on: the placeholder seed [1; 2; 3; 4; 5]
    is turned into a key, the key is submitted, and the sequence ends
    without an error. *)
Theorem authentication_continues_without_seed :
  forall (self : Action) (id : Z) (log : list Event) (clock : string),
    authentication self id (mkWorld [] log clock)
    = (Ok tt,
       mkWorld []
         (log ++ [LogInfo "Authenticating";
                  Generate (authentication_seed id);
                  LogInfo "Collecting the response";
                  LogError "Error requesting seed";
                  Generate (authentication_key id [1; 2; 3; 4; 5]);
                  LogInfo "Collecting the response";
                  LogError "Error sending key"])
         clock).
Proof.
  intros self id log clock.
  unfold authentication, log_info_message, generate.
  run_with ltac:(apply emit_run).
  run_with ltac:(apply emit_run).
  run_with ltac:(apply passive_response_timeout; exact I).
  run_pure. run_pure.
  run_with ltac:(apply emit_run).
  run_with ltac:(apply passive_response_timeout; exact I).
  cbn. rewrite <- !app_assoc. reflexivity.
Qed.

(** C5 on the code.  The extractor is handed the absent response and
    answers with the placeholder [1; 2; 3; 4; 5]; with no frame on the bus
    [_read_by_identifier] returns the data string of that placeholder. *)
Theorem extraction_runs_on_absent_frame :
  data_from_frame None = Ok (Some [1; 2; 3; 4; 5])
  /\ forall (self : Action) (id identifier : Z) (log : list Event) (clock : string),
       fst (read_by_identifier self id identifier (mkWorld [] log clock))
       = Ok "0102030405"%string.
Proof.
  split; [reflexivity|].
  intros self id identifier log clock.
  unfold read_by_identifier, log_info_message, generate.
  run_with ltac:(apply emit_run).
  run_with ltac:(apply emit_run).
  run_with ltac:(apply passive_response_timeout; exact I).
  reflexivity.
Qed.

(** * Further properties of the collector *)

Lemma collect_response_settled self sid w flag msg_ext msg rest :
  collect_loop false None (incoming w) = (Ok (flag, msg_ext, msg), rest) ->
  collect_response self sid w
  = (match (if flag then msg_ext else msg) with
     | Some m => accept_if_verified self sid m
     | None => Ok None
     end, polled w rest).
Proof.
  intros Hloop. unfold collect_response, accept_if_verified, polled.
  rewrite Hloop. destruct (if flag then msg_ext else msg) as [m|]; [|reflexivity].
  destruct (verify_frame self m sid) as [[|]|e]; reflexivity.
Qed.

Lemma collect_response_raised self sid w e rest :
  collect_loop false None (incoming w) = (Raise e, rest) ->
  collect_response self sid w = (Raise e, polled w rest).
Proof. intros Hloop. unfold collect_response. now rewrite Hloop. Qed.

Lemma verify_frame_true self msg sid :
  verify_frame self msg sid = Ok true ->
  arbitration_id msg mod 0x100 = my_id self
  /\ data msg !! service_code_offset (data msg) = Some (sid + 0x40).
Proof.
  rewrite verify_frame_unfold. unfold index.
  destruct (Z.eqb_spec (arbitration_id msg mod 0x100) (my_id self)) as [Hid|Hid];
    cbn [negb]; [|discriminate].
  destruct (data msg !! service_code_offset (data msg)) as [code|]; cbn;
    [|discriminate].
  destruct (Z.eqb_spec code (sid + 0x40)) as [->|]; [easy|discriminate].
Qed.

Lemma collect_response_verified self sid w w' m :
  collect_response self sid w = (Ok (Some m), w') ->
  verify_frame self m sid = Ok true.
Proof.
  intros Hc. unfold collect_response in Hc.
  destruct (collect_loop false None (incoming w)) as [[[[flag ext] msg]|e] rest];
    [|discriminate].
  destruct (if flag then ext else msg) as [m'|]; [|discriminate].
  destruct (verify_frame self m' sid) as [[|]|e] eqn:Hv; try discriminate.
  injection Hc as <- _. exact Hv.
Qed.

(** X1. Whatever the bus delivers, a frame handed back by the collector has
    passed verification: its identifier modulo 0x100 is the sender id and
    its service-code byte is [sid + 0x40]. *)
Theorem collect_response_sound (self : Action) (sid : Z) (w w' : World)
    (m : Message) :
  collect_response self sid w = (Ok (Some m), w') ->
  verify_frame self m sid = Ok true
  /\ arbitration_id m mod 0x100 = my_id self
  /\ data m !! service_code_offset (data m) = Some (sid + 0x40).
Proof.
  intros Hc. pose proof (collect_response_verified _ _ _ _ _ Hc) as Hv.
  split; [exact Hv|]. now apply verify_frame_true.
Qed.

Lemma collect_response_sound_witness :
  verify_frame (mkAction 0xFA []) (mkMessage 0x18DAFA [0x03; 0x62; 0xF1; 0x90]) 0x22
  = Ok true.
Proof.
  apply (proj1 (collect_response_sound (mkAction 0xFA []) 0x22
    (mkWorld [Some (mkMessage 0x18DAFA [0x03; 0x62; 0xF1; 0x90])] [] "12:00")
    (mkWorld [] [] "12:00") _ eq_refl)).
Defined.

(** X2. A frame that does not open with the First-Frame marker, met before
    any accumulation, is a complete response: the collector reads that one
    frame, leaves the rest of the bus unread, and returns the frame when the
    verifier accepts it.  This includes a Consecutive-Frame that arrives
    without a First-Frame. *)
Theorem collect_response_simple_frame (self : Action) (sid : Z) (m : Message)
    (b0 : Z) (rest : list (option Message)) (w : World) :
  data m !! 0%nat = Some b0 ->
  b0 <> 0x10 ->
  incoming w = Some m :: rest ->
  collect_response self sid w = (accept_if_verified self sid m, polled w rest).
Proof.
  intros Hb0 Hne Hin.
  rewrite (collect_response_settled self sid w false None (Some m) rest);
    [reflexivity|].
  rewrite Hin. cbn [collect_loop]. rewrite (index_Some _ _ _ Hb0).
  destruct (Z.eqb_spec b0 0x10); [contradiction|reflexivity].
Qed.

Lemma collect_response_simple_frame_witness :
  collect_response (mkAction 0xFA []) 0x22
    (mkWorld [Some (mkMessage 0x18DAFA [0x21; 0x62; 0xF1; 0x90]);
              Some (mkMessage 0x18DAFA [0x22; 1; 2; 3])] [] "12:00")
  = (Ok (Some (mkMessage 0x18DAFA [0x21; 0x62; 0xF1; 0x90])),
     mkWorld [Some (mkMessage 0x18DAFA [0x22; 1; 2; 3])] [] "12:00").
Proof.
  apply (collect_response_simple_frame (mkAction 0xFA []) 0x22
    (mkMessage 0x18DAFA [0x21; 0x62; 0xF1; 0x90]) 0x21
    [Some (mkMessage 0x18DAFA [0x22; 1; 2; 3])]
    (mkWorld [Some (mkMessage 0x18DAFA [0x21; 0x62; 0xF1; 0x90]);
              Some (mkMessage 0x18DAFA [0x22; 1; 2; 3])] [] "12:00")
    eq_refl ltac:(discriminate) eq_refl).
Defined.

(** X5. A frame with an empty payload, read from the bus, makes the
    collector fail with [IndexError]; the frame has been taken off the bus
    and the frames behind it stay unread. *)
Theorem collect_response_empty_payload (self : Action) (sid : Z) (e : Message)
    (rest : list (option Message)) (w : World) :
  data e = [] ->
  incoming w = Some e :: rest ->
  collect_response self sid w = (Raise IndexError, polled w rest).
Proof.
  intros He Hin. apply collect_response_raised.
  rewrite Hin. cbn [collect_loop]. now rewrite He.
Qed.

Lemma collect_response_empty_payload_witness :
  collect_response (mkAction 0xFA []) 0x22
    (mkWorld [Some (mkMessage 0x18DAFA []);
              Some (mkMessage 0x18DAFA [0x03; 0x62; 0xF1; 0x90])] [] "12:00")
  = (Raise IndexError,
     mkWorld [Some (mkMessage 0x18DAFA [0x03; 0x62; 0xF1; 0x90])] [] "12:00").
Proof.
  apply (collect_response_empty_payload (mkAction 0xFA []) 0x22
    (mkMessage 0x18DAFA []) [Some (mkMessage 0x18DAFA [0x03; 0x62; 0xF1; 0x90])]
    (mkWorld [Some (mkMessage 0x18DAFA []);
              Some (mkMessage 0x18DAFA [0x03; 0x62; 0xF1; 0x90])] [] "12:00")
    eq_refl eq_refl).
Defined.

(** Entered with nothing accumulated, the loop settles at the first poll:
    the First-Frame branch raises before anything is accumulated, so the
    Consecutive-Frame branch is never taken. *)
Lemma collect_loop_head polls :
  collect_loop false None polls
  = match polls with
    | [] => (Ok (false, None, None), [])
    | None :: rest => (Ok (false, None, None), rest)
    | Some msg :: rest =>
        match data msg with
        | [] => (Raise IndexError, rest)
        | b0 :: _ =>
            if b0 =? 0x10 then (Raise TypeError, rest)
            else (Ok (false, None, Some msg), rest)
        end
    end.
Proof.
  destruct polls as [|[msg|] rest]; try reflexivity.
  cbn [collect_loop]. destruct (data msg) as [|b0 t]; [reflexivity|].
  cbn. destruct (b0 =? 0x10); reflexivity.
Qed.

Lemma collect_response_run self sid w :
  collect_response self sid w
  = (match incoming w with
     | [] | None :: _ => Ok None
     | Some msg :: _ =>
         match data msg with
         | [] => Raise IndexError
         | b0 :: _ =>
             if b0 =? 0x10 then Raise TypeError
             else accept_if_verified self sid msg
         end
     end, polled w (drop 1 (incoming w))).
Proof.
  unfold collect_response, accept_if_verified, polled.
  rewrite collect_loop_head.
  destruct (incoming w) as [|[msg|] rest]; try reflexivity.
  destruct (data msg) as [|b0 t]; [reflexivity|].
  destruct (b0 =? 0x10); [reflexivity|].
  destruct (verify_frame self msg sid) as [[|]|e]; reflexivity.
Qed.

Lemma verify_frame_raises self msg sid e :
  verify_frame self msg sid = Raise e -> e = IndexError.
Proof.
  rewrite verify_frame_unfold. destruct (negb _); [discriminate|].
  destruct (index (data msg) (service_code_offset (data msg))) as [c|e'] eqn:Hi;
    [discriminate|].
  cbn. intros [= <-]. now apply index_Raise in Hi as [-> _].
Qed.

Lemma collect_response_frame self sid w w' (r : result (option Message)) :
  collect_response self sid w = (r, w') ->
  (forall e : exn, r = Raise e -> e = IndexError \/ e = TypeError)
  /\ (r = Raise TypeError <->
      exists ff : Message,
        head (incoming w) = Some (Some ff) /\ data ff !! 0%nat = Some 0x10)
  /\ (forall m : Message, r = Ok (Some m) -> head (incoming w) = Some (Some m))
  /\ incoming w' = drop 1 (incoming w)
  /\ events w' = events w
  /\ now w' = now w.
Proof.
  rewrite collect_response_run. intros [= <- <-]. cbn [polled incoming events now].
  destruct (incoming w) as [|[msg|] rest]; cbn [head drop].
  - repeat split; try easy. intros (ff & Habs & _). discriminate.
  - destruct (data msg) as [|b0 t] eqn:Hdata.
    + repeat split; try easy.
      * intros e [= <-]. now left.
      * intros (ff & [= <-] & Habs). rewrite Hdata in Habs. discriminate.
    + destruct (Z.eqb_spec b0 0x10) as [->|Hne].
      * repeat split; try easy.
        -- intros e [= <-]. now right.
        -- intros _. exists msg. now rewrite Hdata.
      * unfold accept_if_verified.
        destruct (verify_frame self msg sid) as [[|]|e] eqn:Hv.
        -- repeat split; try easy.
           ++ intros (ff & [= <-] & Habs). rewrite Hdata in Habs.
              injection Habs as ->. contradiction.
           ++ now intros m [= <-].
        -- repeat split; try easy.
           intros (ff & [= <-] & Habs). rewrite Hdata in Habs.
           injection Habs as ->. contradiction.
        -- apply verify_frame_raises in Hv as ->.
           repeat split; try easy.
           ++ intros e [= <-]. now left.
           ++ intros (ff & [= <-] & Habs). rewrite Hdata in Habs.
              injection Habs as ->. contradiction.
  - repeat split; try easy. intros (ff & Habs & _). discriminate.
Qed.

(** X6. Whatever arrives on the bus, the collector reads exactly one poll
    and leaves the log and the clock untouched.  It raises nothing but
    [IndexError] and [TypeError], and [TypeError] exactly when the frame it
    reads opens with the First-Frame marker 0x10.  A frame it returns is
    the very frame it read from the bus: nothing is ever reassembled. *)
Theorem collect_response_effects (self : Action) (sid : Z) (w w' : World)
    (r : result (option Message)) :
  collect_response self sid w = (r, w') ->
  (forall e : exn, r = Raise e -> e = IndexError \/ e = TypeError)
  /\ (r = Raise TypeError <->
      exists ff : Message,
        head (incoming w) = Some (Some ff) /\ data ff !! 0%nat = Some 0x10)
  /\ (forall m : Message, r = Ok (Some m) -> head (incoming w) = Some (Some m))
  /\ incoming w' = drop 1 (incoming w)
  /\ events w' = events w
  /\ now w' = now w.
Proof. apply collect_response_frame. Qed.

Lemma collect_response_effects_witness :
  incoming (mkWorld [None] [] "12:00")
  = drop 1 (incoming (mkWorld [Some (mkMessage 0x18DAFA [0x10; 0x08; 0x62; 0xF1]); None]
                              [] "12:00")).
Proof.
  apply (proj1 (proj2 (proj2 (proj2 (collect_response_effects (mkAction 0xFA []) 0x22
    (mkWorld [Some (mkMessage 0x18DAFA [0x10; 0x08; 0x62; 0xF1]); None] [] "12:00")
    (mkWorld [None] [] "12:00") (Raise TypeError) eq_refl))))).
Defined.

Lemma verify_frame_true_iff self msg sid :
  verify_frame self msg sid = Ok true <->
  arbitration_id msg mod 0x100 = my_id self
  /\ data msg !! service_code_offset (data msg) = Some (sid + 0x40).
Proof.
  split; [apply verify_frame_true|]. intros [Hid Hcode].
  rewrite verify_frame_unfold, (index_Some _ _ _ Hcode).
  destruct (Z.eqb_spec (arbitration_id msg mod 0x100) (my_id self));
    [|contradiction].
  cbn. now rewrite Z.eqb_refl.
Qed.

(** * Further properties of the orchestration *)

Lemma logged_logged w a b : logged (logged w a) b = logged w (a ++ b).
Proof. unfold logged. cbn. now rewrite <- app_assoc. Qed.

Lemma passive_response_run self sid error_str w :
  passive_response self sid error_str w
  = match collect_response self sid (logged w [LogInfo "Collecting the response"]) with
    | (Ok (Some m), w1) => (Ok (Some m), w1)
    | (Ok None, w1) => (Ok None, logged w1 [LogError error_str])
    | (Raise e, w1) => (Raise e, w1)
    end.
Proof.
  unfold passive_response, log_info_message, log_error_message.
  run_with ltac:(apply emit_run). fold (logged w [LogInfo "Collecting the response"]).
  unfold mbind at 1, M_bind at 1.
  destruct (collect_response self sid (logged w [LogInfo "Collecting the response"]))
    as [[[m|]|e] w1]; reflexivity.
Qed.

Lemma passive_response_frame self sid error_str w w' (r : result (option Message)) :
  passive_response self sid error_str w = (r, w') ->
  events w' = events w
              ++ LogInfo "Collecting the response"
                 :: match r with Ok None => [LogError error_str] | _ => [] end
  /\ (forall e : exn, r = Raise e -> e = IndexError \/ e = TypeError)
  /\ (forall m : Message, r = Ok (Some m) -> verify_frame self m sid = Ok true)
  /\ incoming w' `suffix_of` incoming w
  /\ now w' = now w.
Proof.
  rewrite passive_response_run.
  destruct (collect_response self sid (logged w [LogInfo "Collecting the response"]))
    as [r1 w1] eqn:Hc.
  pose proof (collect_response_frame _ _ _ _ _ Hc) as (Hr & _ & _ & Hin & Hev & Hnow).
  cbn [logged incoming events now] in Hin, Hev, Hnow.
  assert (Hsuf : incoming w1 `suffix_of` incoming w).
  { rewrite Hin. apply suffix_drop. }
  destruct r1 as [[m|]|e]; intros [= <- <-]; cbn [logged incoming events now].
  - rewrite Hev. repeat split; try easy.
    intros m' [= <-]. exact (collect_response_verified _ _ _ _ _ Hc).
  - rewrite Hev, <- app_assoc. repeat split; easy.
  - rewrite Hev. repeat split; easy.
Qed.

(** X8. One call of [_passive_response] writes the line "Collecting the
    response" and, exactly when it answers with the absent response, one
    error line carrying [error_str].  It raises nothing but the collector's
    [IndexError] and [TypeError] (never [CustomError]), a frame it returns
    has passed verification, and it only reads the bus forward. *)
Theorem passive_response_effects (self : Action) (sid : Z) (error_str : string)
    (w w' : World) (r : result (option Message)) :
  passive_response self sid error_str w = (r, w') ->
  events w' = events w
              ++ LogInfo "Collecting the response"
                 :: match r with Ok None => [LogError error_str] | _ => [] end
  /\ (forall e : exn, r = Raise e -> e = IndexError \/ e = TypeError)
  /\ (forall m : Message, r = Ok (Some m) -> verify_frame self m sid = Ok true)
  /\ incoming w' `suffix_of` incoming w
  /\ now w' = now w.
Proof. apply passive_response_frame. Qed.

Lemma passive_response_effects_witness :
  events (mkWorld [] [LogInfo "Collecting the response"; LogError "Error service"]
                  "12:00")
  = events (mkWorld [Some (mkMessage 0x18DAFB [0x03; 0x62; 0xF1; 0x90])] [] "12:00")
    ++ [LogInfo "Collecting the response"; LogError "Error service"].
Proof.
  apply (proj1 (passive_response_effects (mkAction 0xFA []) 0x22 "Error service"
    (mkWorld [Some (mkMessage 0x18DAFB [0x03; 0x62; 0xF1; 0x90])] [] "12:00")
    (mkWorld [] [LogInfo "Collecting the response"; LogError "Error service"] "12:00")
    (Ok None) eq_refl)).
Defined.

Lemma data_from_frame_verified self msg sid :
  verify_frame self msg sid = Ok true ->
  data_from_frame (Some msg)
  = match handlers !! (sid + 0x40) with
    | Some handler => d ← handler_data_from_frame handler msg; Ok (Some d)
    | None => Ok None
    end.
Proof.
  intros Hv. apply verify_frame_true in Hv as [_ Hcode].
  now rewrite data_from_frame_unfold, (index_Some _ _ _ Hcode).
Qed.

(** X9. Extraction after verification.  A frame verified for
    ReadByIdentifier always yields its payload from offset 4 on, and never
    fails.  A frame verified for the Authentication service carries 0x69,
    for which no handler is registered (the seed handler sits under 0x29),
    so it yields no data.  A frame verified for ReadByAddress fails exactly
    when it has no byte at offset 2. *)
Theorem verified_frame_extraction (self : Action) (msg : Message) (sid : Z) :
  verify_frame self msg sid = Ok true ->
  (sid = READ_BY_IDENTIFIER ->
   data_from_frame (Some msg) = Ok (Some (drop 4 (data msg))))
  /\ (sid = AUTHENTICATION -> data_from_frame (Some msg) = Ok None)
  /\ (sid = READ_BY_ADDRESS ->
      data_from_frame (Some msg)
      = (d ← ReadByAddress._data_from_frame msg; Ok (Some d))
      /\ (data_from_frame (Some msg) = Raise IndexError
          <-> (length (data msg) <= 2)%nat)).
Proof.
  intros Hv. rewrite (data_from_frame_verified _ _ _ Hv).
  split; [|split].
  - intros ->. reflexivity.
  - intros ->. reflexivity.
  - intros ->. split; [reflexivity|].
    change (handlers !! (READ_BY_ADDRESS + 0x40)) with (Some ReadByAddress).
    cbn [handler_data_from_frame]. unfold ReadByAddress._data_from_frame.
    destruct (index (data msg) 2) as [b|e] eqn:Hi; cbn.
    + split; [discriminate|]. intros Hle.
      assert (index (data msg) 2 = Raise IndexError) as Habs
        by (apply index_Raise; easy).
      congruence.
    + apply index_Raise in Hi as [-> Hle]. easy.
Qed.

Lemma verified_frame_extraction_witness :
  data_from_frame (Some (mkMessage 0x18DAFA [0x06; 0x69; 0x01; 0x11; 0x22; 0x33]))
  = Ok None.
Proof.
  apply (proj1 (proj2 (verified_frame_extraction (mkAction 0xFA [])
    (mkMessage 0x18DAFA [0x06; 0x69; 0x01; 0x11; 0x22; 0x33]) AUTHENTICATION
    eq_refl)) eq_refl).
Defined.

Lemma bind_emit {B} (e : Event) (f : unit -> M B) (w : World) :
  (emit e ≫= f) w = f tt (logged w [e]).
Proof. reflexivity. Qed.

Lemma bind_lift {A B} (r : result A) (f : A -> M B) (w : World) :
  (lift r ≫= f) w
  = match r with
    | Ok a => f a w
    | Raise e => (Raise e, w)
    end.
Proof. destruct r; reflexivity. Qed.

Lemma read_by_identifier_run self id identifier w :
  read_by_identifier self id identifier w
  = match passive_response self READ_BY_IDENTIFIER
            ("Error reading data from identifier " +:+ str identifier)
            (logged w [LogInfo "Read from identifier {identifier}";
                       Generate (read_data_by_identifier id identifier)]) with
    | (Raise e, w2) => (Raise e, w2)
    | (Ok frame_response, w2) =>
        match data_from_frame frame_response with
        | Raise e => (Raise e, w2)
        | Ok d =>
            match iterable d with
            | Raise e => (Raise e, w2)
            | Ok items => (Ok (list_to_number items), w2)
            end
        end
    end.
Proof.
  unfold read_by_identifier, log_info_message, generate.
  rewrite bind_emit. cbv beta. rewrite bind_emit. cbv beta.
  rewrite logged_logged. cbn [app].
  unfold mbind at 1, M_bind at 1.
  destruct (passive_response self READ_BY_IDENTIFIER _ _) as [[fr|e] w2];
    [|reflexivity].
  rewrite bind_lift. destruct (data_from_frame fr) as [d|e]; [|reflexivity].
  rewrite bind_lift. destruct (iterable d); reflexivity.
Qed.

(** X10. [_read_by_identifier] answers with the hexadecimal string of the
    verified response's payload from offset 4 on; with the string of the
    placeholder, "0102030405", when the response is absent; and it fails
    only where the collector fails, with [IndexError] or [TypeError]. *)
Theorem read_by_identifier_outcomes (self : Action) (id identifier : Z)
    (w w2 : World) (r1 : result (option Message)) :
  passive_response self READ_BY_IDENTIFIER
    ("Error reading data from identifier " +:+ str identifier)
    (logged w [LogInfo "Read from identifier {identifier}";
               Generate (read_data_by_identifier id identifier)])
  = (r1, w2) ->
  read_by_identifier self id identifier w
  = (match r1 with
     | Ok (Some m) => Ok (list_to_number (drop 4 (data m)))
     | Ok None => Ok "0102030405"%string
     | Raise e => Raise e
     end, w2)
  /\ (forall e : exn, r1 = Raise e -> e = IndexError \/ e = TypeError).
Proof.
  intros Hp. pose proof (passive_response_frame _ _ _ _ _ _ Hp)
    as (_ & Hraise & Hver & _).
  split; [|exact Hraise].
  rewrite read_by_identifier_run, Hp.
  destruct r1 as [[m|]|e]; try reflexivity.
  rewrite (data_from_frame_verified self m READ_BY_IDENTIFIER (Hver m eq_refl)).
  reflexivity.
Qed.

Lemma read_by_identifier_outcomes_witness :
  read_by_identifier (mkAction 0xFA []) 0x11 0xF190
    (mkWorld [Some (mkMessage 0x18DAFA [0x06; 0x62; 0xF1; 0x90; 0x0A; 0xBC; 0xDE])]
             [] "12:00")
  = (Ok "0abcde"%string,
     mkWorld [] [LogInfo "Read from identifier {identifier}";
                 Generate (read_data_by_identifier 0x11 0xF190);
                 LogInfo "Collecting the response"] "12:00").
Proof.
  apply (proj1 (read_by_identifier_outcomes (mkAction 0xFA []) 0x11 0xF190
    (mkWorld [Some (mkMessage 0x18DAFA [0x06; 0x62; 0xF1; 0x90; 0x0A; 0xBC; 0xDE])]
             [] "12:00")
    (mkWorld [] [LogInfo "Read from identifier {identifier}";
                 Generate (read_data_by_identifier 0x11 0xF190);
                 LogInfo "Collecting the response"] "12:00")
    (Ok (Some (mkMessage 0x18DAFA [0x06; 0x62; 0xF1; 0x90; 0x0A; 0xBC; 0xDE])))
    eq_refl)).
Defined.

Lemma authentication_run self id w :
  authentication self id w
  = match passive_response self AUTHENTICATION "Error requesting seed"
            (logged w [LogInfo "Authenticating"; Generate (authentication_seed id)]) with
    | (Raise e, w2) => (Raise e, w2)
    | (Ok frame_response, w2) =>
        match data_from_frame frame_response with
        | Raise e => (Raise e, w2)
        | Ok seed =>
            match iterable seed with
            | Raise e => (Raise e, w2)
            | Ok values =>
                match passive_response self AUTHENTICATION "Error sending key"
                        (logged w2 [Generate (authentication_key id (algorithm values))]) with
                | (Raise e, w3) => (Raise e, w3)
                | (Ok _, w3) => (Ok tt, w3)
                end
            end
        end
    end.
Proof.
  unfold authentication, log_info_message, generate.
  rewrite bind_emit. cbv beta. rewrite bind_emit. cbv beta.
  rewrite logged_logged. cbn [app].
  unfold mbind at 1, M_bind at 1.
  destruct (passive_response self AUTHENTICATION "Error requesting seed" _)
    as [[fr|e] w2]; [|reflexivity].
  rewrite bind_lift. destruct (data_from_frame fr) as [seed|e]; [|reflexivity].
  rewrite bind_lift. destruct (iterable seed) as [values|e]; [|reflexivity].
  rewrite bind_emit. cbv beta.
  unfold mbind at 1, M_bind at 1.
  destruct (passive_response self AUTHENTICATION "Error sending key" _)
    as [[fr2|e] w3]; reflexivity.
Qed.

(** X11. When the seed request is answered by a frame that passes
    verification, [_authentication] fails with [TypeError]: the verified
    frame carries 0x69, the extractor knows no handler for it and returns
    nothing, and the key computation iterates over that.  No key is
    submitted. *)
Theorem authentication_fails_on_seed_response (self : Action) (id : Z)
    (w w2 : World) (m : Message) :
  passive_response self AUTHENTICATION "Error requesting seed"
    (logged w [LogInfo "Authenticating"; Generate (authentication_seed id)])
  = (Ok (Some m), w2) ->
  authentication self id w = (Raise TypeError, w2)
  /\ events w2 = events w ++ [LogInfo "Authenticating";
                              Generate (authentication_seed id);
                              LogInfo "Collecting the response"].
Proof.
  intros Hp. pose proof (passive_response_frame _ _ _ _ _ _ Hp)
    as (Hev & _ & Hver & _).
  split.
  - rewrite authentication_run, Hp.
    rewrite (data_from_frame_verified self m AUTHENTICATION (Hver m eq_refl)).
    reflexivity.
  - rewrite Hev. cbn [logged events]. now rewrite <- app_assoc.
Qed.

Lemma authentication_fails_on_seed_response_witness :
  authentication (mkAction 0xFA []) 0x11
    (mkWorld [Some (mkMessage 0x18DAFA [0x06; 0x69; 0x01; 0x11; 0x22; 0x33])]
             [] "12:00")
  = (Raise TypeError,
     mkWorld [] [LogInfo "Authenticating"; Generate (authentication_seed 0x11);
                 LogInfo "Collecting the response"] "12:00").
Proof.
  apply (proj1 (authentication_fails_on_seed_response (mkAction 0xFA []) 0x11
    (mkWorld [Some (mkMessage 0x18DAFA [0x06; 0x69; 0x01; 0x11; 0x22; 0x33])]
             [] "12:00")
    (mkWorld [] [LogInfo "Authenticating"; Generate (authentication_seed 0x11);
                 LogInfo "Collecting the response"] "12:00")
    (mkMessage 0x18DAFA [0x06; 0x69; 0x01; 0x11; 0x22; 0x33]) eq_refl)).
Defined.

Ltac key_events_in H :=
  cbn in H;
  repeat (destruct H as [H|H]; [try discriminate|]);
  try contradiction; try discriminate.

(** X12. Every key that [_authentication] submits is the key of the
    placeholder seed, [1; 2; 3; 4; 5]: a key computed from a seed the ECU
    sent is never submitted.  The sequence ends normally only after
    submitting that placeholder key, and otherwise fails with [IndexError]
    or [TypeError]; the record of events only grows. *)
Theorem authentication_submits_placeholder_only (self : Action) (id : Z)
    (w w' : World) (r : result unit) :
  authentication self id w = (r, w') ->
  exists added : list Event,
    events w' = events w ++ added
    /\ (forall (i : Z) (k : list Z),
        In (Generate (authentication_key i k)) added ->
        i = id /\ k = [1; 2; 3; 4; 5])
    /\ (r = Ok tt -> In (Generate (authentication_key id [1; 2; 3; 4; 5])) added)
    /\ (forall e : exn, r = Raise e -> e = IndexError \/ e = TypeError).
Proof.
  rewrite authentication_run.
  destruct (passive_response self AUTHENTICATION "Error requesting seed" _)
    as [r1 w2] eqn:Hp1.
  pose proof (passive_response_frame _ _ _ _ _ _ Hp1) as (Hev1 & Hraise1 & Hver1 & _).
  cbn [logged events] in Hev1. rewrite <- app_assoc in Hev1. cbn [app] in Hev1.
  destruct r1 as [[m|]|e1].
  - rewrite (data_from_frame_verified self m AUTHENTICATION (Hver1 m eq_refl)).
    change (handlers !! (AUTHENTICATION + 0x40)) with (@None FrameWithData).
    cbn [iterable]. intros [= <- <-].
    eexists. split; [exact Hev1|]. split; [|split].
    + intros i k Hin. key_events_in Hin.
    + discriminate.
    + intros e [= <-]. now right.
  - cbn [data_from_frame iterable].
    change (algorithm [1; 2; 3; 4; 5]) with [1; 2; 3; 4; 5].
    destruct (passive_response self AUTHENTICATION "Error sending key" _)
      as [r2 w3] eqn:Hp2.
    pose proof (passive_response_frame _ _ _ _ _ _ Hp2) as (Hev2 & Hraise2 & _).
    cbn [logged events] in Hev2. rewrite Hev1 in Hev2.
    rewrite <- !app_assoc in Hev2. cbn [app] in Hev2.
    destruct r2 as [[m2|]|e2]; intros [= <- <-];
      (eexists; split; [exact Hev2|]; split; [|split]);
      try (intros i k Hin; key_events_in Hin; injection Hin as <- <-; easy);
      try (intros _; cbn; tauto);
      try discriminate.
    intros e [= <-]. now apply Hraise2.
  - intros [= <- <-].
    eexists. split; [exact Hev1|]. split; [|split].
    + intros i k Hin. key_events_in Hin.
    + discriminate.
    + intros e [= <-]. now apply Hraise1.
Qed.

Lemma authentication_submits_placeholder_only_witness :
  exists added : list Event,
    events (mkWorld [] [LogInfo "Authenticating"; Generate (authentication_seed 0x11);
                        LogInfo "Collecting the response"] "12:00")
    = events (mkWorld [Some (mkMessage 0x18DAFA [0x06; 0x69; 0x01; 0x11; 0x22; 0x33])]
                      [] "12:00") ++ added
    /\ (forall (i : Z) (k : list Z),
        In (Generate (authentication_key i k)) added ->
        i = 0x11 /\ k = [1; 2; 3; 4; 5]).
Proof.
  destruct (authentication_submits_placeholder_only (mkAction 0xFA []) 0x11
    (mkWorld [Some (mkMessage 0x18DAFA [0x06; 0x69; 0x01; 0x11; 0x22; 0x33])]
             [] "12:00")
    (mkWorld [] [LogInfo "Authenticating"; Generate (authentication_seed 0x11);
                 LogInfo "Collecting the response"] "12:00")
    (Raise TypeError) eq_refl) as (added & Hev & Hkeys & _).
  exists added. split; [exact Hev|exact Hkeys].
Defined.

(** * Further properties of the pure helpers *)

(** X14. The verifier looks at the low byte of the identifier only: adding a
    multiple of 0x100 to the identifier does not change its verdict.  An
    [Action] whose own id lies outside [0, 0xFF] accepts no frame at all. *)
Theorem verify_frame_low_byte (self : Action) (aid k sid : Z) (payload : list Z) :
  verify_frame self (mkMessage (aid + k * 0x100) payload) sid
  = verify_frame self (mkMessage aid payload) sid
  /\ (~ (0 <= my_id self < 0x100) ->
      verify_frame self (mkMessage aid payload) sid = Ok false).
Proof.
  split.
  - rewrite !verify_frame_unfold. cbn [arbitration_id data].
    now rewrite Z.mod_add by lia.
  - intros Hid. rewrite verify_frame_unfold. cbn [arbitration_id].
    pose proof (Z.mod_pos_bound aid 0x100 ltac:(lia)).
    destruct (Z.eqb_spec (aid mod 0x100) (my_id self)); [lia|reflexivity].
Qed.

Lemma verify_frame_low_byte_witness :
  verify_frame (mkAction 0x1FA []) (mkMessage 0x1FA [0x03; 0x62; 0xF1; 0x90]) 0x22
  = Ok false.
Proof.
  apply (proj2 (verify_frame_low_byte (mkAction 0x1FA []) 0x1FA 0 0x22
                  [0x03; 0x62; 0xF1; 0x90])).
  cbn. lia.
Defined.

(** X15. When a payload opens with 0x10 and carries 0x63 at offset 2, the
    extractor reads code and ReadByAddress length byte from the same
    offset 2: the length byte is 0x63 and the data returned starts at
    offset 12. *)
Theorem read_by_address_behind_marker (msg : Message) :
  data msg !! 0%nat = Some 0x10 ->
  data msg !! 2%nat = Some 0x63 ->
  data_from_frame (Some msg) = Ok (Some (drop 12 (data msg))).
Proof.
  intros H0 H2. rewrite data_from_frame_unfold.
  rewrite (service_code_offset_spec _ _ H0). cbn [Z.eqb Pos.eqb].
  rewrite (index_Some _ _ _ H2). cbn.
  rewrite handlers_lookup. cbn.
  unfold ReadByAddress._data_from_frame in *.
  change (handler_data_from_frame ReadByAddress msg)
    with (ReadByAddress._data_from_frame msg).
  unfold ReadByAddress._data_from_frame. rewrite (index_Some _ _ _ H2).
  reflexivity.
Qed.

Lemma read_by_address_behind_marker_witness :
  data_from_frame
    (Some (mkMessage 0x18DAFA
             [0x10; 0x0E; 0x63; 1; 2; 3; 4; 5; 6; 7; 8; 9; 0xAA; 0xBB]))
  = Ok (Some [0xAA; 0xBB]).
Proof.
  apply (read_by_address_behind_marker
    (mkMessage 0x18DAFA [0x10; 0x0E; 0x63; 1; 2; 3; 4; 5; 6; 7; 8; 9; 0xAA; 0xBB])
    eq_refl eq_refl).
Defined.

Lemma key_byte_of_byte b : is_byte b -> key_byte b = b.
Proof.
  intros [Hlo Hhi]. rewrite key_byte_mod. apply Z.mod_small. lia.
Qed.

Lemma key_byte_idempotent v : key_byte (key_byte v) = key_byte v.
Proof.
  apply key_byte_of_byte. rewrite key_byte_mod. unfold is_byte.
  pose proof (Z.mod_pos_bound v 0x100 ltac:(lia)). lia.
Qed.

(** X16. The key computed from a seed of payload bytes (each in [0, 255],
    as every seed taken from a frame is) is the seed itself. *)
Theorem algorithm_identity_on_bytes (seed : list Z) :
  Forall is_byte seed -> algorithm seed = seed.
Proof.
  intros Hseed. rewrite algorithm_map.
  induction Hseed as [|b seed Hb _ IH]; [reflexivity|].
  cbn [map]. now rewrite IH, key_byte_of_byte.
Qed.

Lemma algorithm_identity_on_bytes_witness :
  algorithm [0x00; 0x7F; 0x80; 0xFF] = [0x00; 0x7F; 0x80; 0xFF].
Proof.
  apply (algorithm_identity_on_bytes [0x00; 0x7F; 0x80; 0xFF]).
  repeat constructor; unfold is_byte; lia.
Defined.

(** X17. On arbitrary integers the key computation reduces every item
    modulo 256, so the key is a list of bytes whatever the seed holds;
    computing the key of a key changes nothing; and the key of a
    concatenation is the concatenation of the keys. *)
Theorem algorithm_reduces_modulo_256 (seed seed' : list Z) :
  algorithm seed = map (fun v => v mod 0x100) seed
  /\ Forall is_byte (algorithm seed)
  /\ algorithm (algorithm seed) = algorithm seed
  /\ algorithm (seed ++ seed') = algorithm seed ++ algorithm seed'.
Proof.
  rewrite !algorithm_map. split; [|split; [|split]].
  - apply map_ext. intros v. apply key_byte_mod.
  - apply Forall_forall. intros k Hk.
    apply list_elem_of_In, in_map_iff in Hk as (v & <- & _).
    rewrite key_byte_mod. unfold is_byte.
    pose proof (Z.mod_pos_bound v 0x100 ltac:(lia)). lia.
  - rewrite map_map. apply map_ext. intros v. apply key_byte_idempotent.
  - apply map_app.
Qed.

Lemma concat_digits_app a b :
  concat_digits (a ++ b) = concat_digits a +:+ concat_digits b.
Proof.
  induction a as [|x a IH]; [reflexivity|].
  cbn [app]. rewrite !concat_digits_cons, IH. now rewrite append_assoc.
Qed.

Lemma concat_digits_decode (s : list Z) :
  Forall is_byte s -> number_to_list (concat_digits s) = Some s.
Proof.
  induction 1 as [|b s Hb _ IH]; [reflexivity|].
  destruct (two_digits_byte b Hb) as (h & l & Hdigits & _ & _ & Hhi & Hlo).
  rewrite concat_digits_cons, Hdigits.
  change (String h (String l "") +:+ concat_digits s)
    with (String h (String l (concat_digits s))).
  cbn [number_to_list]. rewrite Hhi, Hlo, IH. cbn.
  do 2 f_equal. symmetry. apply Z.div_mod. lia.
Qed.

(** X18. [_list_to_number] turns concatenation of lists into concatenation
    of strings, for items of any size, and gives the empty string on the
    empty list. *)
Theorem list_to_number_app (a b : list Z) :
  list_to_number (a ++ b) = list_to_number a +:+ list_to_number b
  /\ list_to_number [] = ""%string.
Proof.
  split; [|reflexivity].
  rewrite !list_to_number_concat. apply concat_digits_app.
Qed.

(** X19. On lists of bytes [_list_to_number] is injective: two byte lists
    with the same string are the same list.  Beyond bytes it is not: the
    single item 0x1203 and the two bytes 0x12, 0x03 give the same string. *)
Theorem list_to_number_injective :
  (forall a b : list Z,
     Forall is_byte a ->
     Forall is_byte b ->
     list_to_number a = list_to_number b ->
     a = b)
  /\ list_to_number [0x1203] = list_to_number [0x12; 0x03].
Proof.
  split; [|reflexivity].
  intros a b Ha Hb Heq. rewrite !list_to_number_concat in Heq.
  pose proof (concat_digits_decode a Ha) as Hda.
  pose proof (concat_digits_decode b Hb) as Hdb.
  rewrite Heq in Hda. congruence.
Qed.

Lemma list_to_number_injective_witness :
  [0x01; 0x23] = [0x01; 0x23].
Proof.
  apply (proj1 list_to_number_injective [0x01; 0x23] [0x01; 0x23]).
  - repeat constructor; unfold is_byte; lia.
  - repeat constructor; unfold is_byte; lia.
  - reflexivity.
Defined.

(** X20. Among the non-negative service ids only ReadByIdentifier (0x22)
    and ReadByAddress (0x23) have a handler under their positive-response
    code: a frame verified for any other service yields no data, and the
    seed handler, registered under 0x29, is never reached through a
    verified frame. *)
Theorem verified_frame_without_handler (self : Action) (msg : Message) (sid : Z) :
  verify_frame self msg sid = Ok true ->
  0 <= sid ->
  handlers !! (sid + 0x40) <> Some AuthenticationSeed
  /\ (sid <> READ_BY_IDENTIFIER -> sid <> READ_BY_ADDRESS ->
      data_from_frame (Some msg) = Ok None).
Proof.
  intros Hv Hsid. rewrite (data_from_frame_verified _ _ _ Hv), handlers_lookup.
  unfold READ_BY_IDENTIFIER, READ_BY_ADDRESS.
  destruct (Z.eqb_spec (sid + 0x40) 0x62); [split; [discriminate|lia]|].
  destruct (Z.eqb_spec (sid + 0x40) 0x63); [split; [discriminate|lia]|].
  destruct (Z.eqb_spec (sid + 0x40) 0x29); [lia|].
  split; [discriminate|reflexivity].
Qed.

Lemma verified_frame_without_handler_witness :
  data_from_frame (Some (mkMessage 0x18DAFA [0x02; 0x50; 0x03])) = Ok None.
Proof.
  apply (proj2 (verified_frame_without_handler (mkAction 0xFA [])
    (mkMessage 0x18DAFA [0x02; 0x50; 0x03]) SESSION_CONTROL eq_refl
    ltac:(unfold SESSION_CONTROL; lia)));
    unfold SESSION_CONTROL, READ_BY_IDENTIFIER, READ_BY_ADDRESS; lia.
Defined.
